(** * mongodb-change-streams-example: a model of [src/index.ts]

    The script connects a [MongoClient], opens a change stream on the
    collection [sample_airbnb.listingsAndReviews], prints the change
    events that arrive during a fixed time window and closes the stream
    and the client.  It contains three monitor functions, one per
    consumption style of the driver's [ChangeStream]: the event emitter,
    the [hasNext]/[next] pull loop and the Node stream API.

    The embedding is a state-and-exception monad over the observable
    effects of the script (console lines, operations on the client, the
    closed flag of the change stream).  The MongoDB server and driver are
    the environment: what they answer is data of the model ([Env], and
    the [Step] traces of the pull loop). *)

From Stdlib Require Import List String Ascii ZArith Bool Lia.
Import ListNotations.
Local Open Scope string_scope.
Local Open Scope list_scope.

(** ** Documents and change events *)

#[local] Set Warnings "-register-all".

(** A JavaScript value as far as the script looks at one: the change
    events and the [$match] conditions are nested objects with string
    leaves. *)
Inductive Value : Type :=
| VString (s : string)
| VNumber (n : Z)
| VObject (fields : list (string * Value)).

Definition ChangeEvent := Value.
Definition Error := string.

Fixpoint value_eqb (a b : Value) {struct a} : bool :=
  match a, b with
  | VString s, VString t => String.eqb s t
  | VNumber n, VNumber m => Z.eqb n m
  | VObject fs, VObject gs =>
      (fix fields_eqb (fs gs : list (string * Value)) {struct fs} : bool :=
         match fs, gs with
         | [], [] => true
         | (k, v) :: fs', (k', v') :: gs' =>
             String.eqb k k' && value_eqb v v' && fields_eqb fs' gs'
         | _, _ => false
         end) fs gs
  | _, _ => false
  end.

Fixpoint field (k : string) (fs : list (string * Value)) : option Value :=
  match fs with
  | [] => None
  | (k', v) :: rest => if String.eqb k k' then Some v else field k rest
  end.

(** ['fullDocument.address.country'] is the path
    [fullDocument; address; country]. *)
Fixpoint split_dots (s : string) : list string :=
  match s with
  | EmptyString => [EmptyString]
  | String c rest =>
      if Ascii.eqb c "."%char then EmptyString :: split_dots rest
      else match split_dots rest with
           | [] => [String c EmptyString]
           | w :: ws => String c w :: ws
           end
  end.

Fixpoint get_path (path : list string) (v : Value) : option Value :=
  match path with
  | [] => Some v
  | k :: rest =>
      match v with
      | VObject fs =>
          match field k fs with
          | Some v' => get_path rest v'
          | None => None
          end
      | _ => None
      end
  end.

(** ** Aggregation pipelines

    [Document[]] in the source.  [$match] is the only stage the script
    writes; its conditions are field path / expected value pairs, all of
    which must hold.  The server applies the pipeline before an event
    reaches the change stream. *)
Inductive Stage : Type :=
| Match (conditions : list (string * Value)).

Definition Pipeline := list Stage.

Definition satisfies (ev : ChangeEvent) (cond : string * Value) : bool :=
  match get_path (split_dots (fst cond)) ev with
  | Some v => value_eqb v (snd cond)
  | None => false
  end.

Definition stage_passes (ev : ChangeEvent) (s : Stage) : bool :=
  match s with
  | Match conditions => forallb (satisfies ev) conditions
  end.

Definition passes (pipeline : Pipeline) (ev : ChangeEvent) : bool :=
  forallb (stage_passes ev) pipeline.

(** ** Observable effects *)

(** One call of [console.log] (or [console.error]). *)
Inductive Line : Type :=
| LText (s : string)
| LDoc (doc : ChangeEvent)
| LError (e : Error).

(** Operations the script performs on the [MongoClient]. *)
Inductive ClientOp : Type :=
| OpNew (uri : string)
| OpConnect
| OpWatch (db collection : string) (pipeline : Pipeline)
| OpClose.

(** What the outside world does in one run. [feed] lists the changes of
    the watched collection in arrival order, each with its arrival time
    in milliseconds after the stream was opened. *)
Record Env : Type := mkEnv {
  MONGO_DB_URI : option string;
  connect_outcome : option Error;     (* [None]: [connect()] resolves *)
  close_outcome : option Error;       (* [None]: [client.close()] resolves *)
  feed : list (Z * ChangeEvent);
  after_close : option Error          (* how a [hasNext()] pending at
                                         [close()] settles: [None] resolves
                                         [false], [Some e] rejects with [e] *)
}.

Record St : Type := mkSt {
  console : list Line;
  client_ops : list ClientOp;
  changeStream_closed : bool
}.

Definition st0 : St :=
  {| console := []; client_ops := []; changeStream_closed := false |}.

(** ** The monad: state, exceptions, and awaits that never settle *)

Inductive result (A : Type) : Type :=
| Returned (a : A)
| Threw (e : Error)
| Waiting.

Arguments Returned {A} a.
Arguments Threw {A} e.
Arguments Waiting {A}.

Definition M (A : Type) : Type := St -> result A * St.

Definition ret {A} (a : A) : M A := fun st => (Returned a, st).

Definition bind {A B} (m : M A) (k : A -> M B) : M B :=
  fun st =>
    match m st with
    | (Returned a, st') => k a st'
    | (Threw e, st') => (Threw e, st')
    | (Waiting, st') => (Waiting, st')
    end.

Definition throw {A} (e : Error) : M A := fun st => (Threw e, st).

Notation "x <- m ;; k" := (bind m (fun x => k))
  (at level 61, m at next level, right associativity).
Notation "m ;; k" := (bind m (fun _ => k))
  (at level 61, right associativity).

(** [try { body } catch (error) { handler error }] *)
Definition try_catch {A} (body : M A) (handler : Error -> M A) : M A :=
  fun st =>
    match body st with
    | (Threw e, st') => handler e st'
    | other => other
    end.

(** [try { body } finally { finalizer }]: the finalizer runs when the
    body returns and when it throws; an error of the finalizer replaces
    the body's outcome.  A body that never settles never reaches it. *)
Definition try_finally {A} (body : M A) (finalizer : M unit) : M A :=
  fun st =>
    match body st with
    | (Waiting, st') => (Waiting, st')
    | (r, st') =>
        match finalizer st' with
        | (Returned _, st'') => (r, st'')
        | (Threw e, st'') => (Threw e, st'')
        | (Waiting, st'') => (Waiting, st'')
        end
    end.

Definition console_log (l : Line) : M unit :=
  fun st =>
    (Returned tt,
     {| console := console st ++ [l];
        client_ops := client_ops st;
        changeStream_closed := changeStream_closed st |}).

Definition client_op (op : ClientOp) : St -> St :=
  fun st =>
    {| console := console st;
       client_ops := client_ops st ++ [op];
       changeStream_closed := changeStream_closed st |}.

Definition settle (o : option Error) : result unit :=
  match o with
  | None => Returned tt
  | Some e => Threw e
  end.

Definition with_default {A} (d : A) (o : option A) : A :=
  match o with
  | Some a => a
  | None => d
  end.

(** The documents among the console lines, in print order. *)
Definition printed_docs (c : list Line) : list ChangeEvent :=
  flat_map (fun l => match l with LDoc d => [d] | _ => [] end) c.

(** ** The driver, as the script uses it *)

(** The handle returned by [collection.watch(pipeline)]: the changes the
    server will send on it, already filtered by the pipeline. *)
Record ChangeStream : Type := mkChangeStream {
  cs_events : list (Z * ChangeEvent)
}.

Definition connect (env : Env) : M unit :=
  fun st => (settle (connect_outcome env), client_op OpConnect st).

Definition client_close (env : Env) : M unit :=
  fun st => (settle (close_outcome env), client_op OpClose st).

(** [client.db(db).collection(coll).watch(pipeline)] *)
Definition watch (env : Env) (db coll : string) (pipeline : Pipeline)
  : M ChangeStream :=
  fun st =>
    (Returned {| cs_events :=
                   filter (fun te => passes pipeline (snd te)) (feed env) |},
     client_op (OpWatch db coll pipeline) st).

(** [changeStream.close()] *)
Definition changeStream_close : M unit :=
  fun st =>
    (Returned tt,
     {| console := console st;
        client_ops := client_ops st;
        changeStream_closed := true |}).

(** The events of a stream that arrive before a timer set to [timeInMs]
    runs. *)
Definition arrivals_before (timeInMs : Z) (cs : ChangeStream)
  : list ChangeEvent :=
  map snd (filter (fun te => Z.ltb (fst te) timeInMs) (cs_events cs)).

(** Emitter mode: the driver calls the ['change'] listener once per
    event, in arrival order. *)
Fixpoint emit_each (listener : ChangeEvent -> M unit)
  (evs : list ChangeEvent) : M unit :=
  match evs with
  | [] => ret tt
  | ev :: rest => listener ev ;; emit_each listener rest
  end.

(** Stream mode: [readable.pipe(writable)] hands the next document to
    [write] only when the previous call has invoked its callback. *)
Record Writable : Type := mkWritable {
  write : ChangeEvent -> (unit -> M unit) -> M unit
}.

Fixpoint pipe (docs : list ChangeEvent) (w : Writable) : M unit :=
  match docs with
  | [] => ret tt
  | doc :: rest => write w doc (fun _ => pipe rest w)
  end.

(** Pull mode: what the event loop runs while the loop of
    [monitorListingsUsingHasNext] is suspended on an [await]. *)
Inductive Settled (A : Type) : Type :=
| Resolves (a : A)
| Rejects (e : Error).

Arguments Resolves {A} a.
Arguments Rejects {A} e.

Inductive Step : Type :=
| TimerFires
| HasNextSettles (r : Settled bool)
| NextSettles (r : Settled ChangeEvent).

(** The steps of the driver for events that arrive one after the other:
    [hasNext()] resolves [true], then [next()] resolves the event. *)
Definition deliveries (evs : list ChangeEvent) : list Step :=
  flat_map
    (fun ev => [HasNextSettles (Resolves true); NextSettles (Resolves ev)])
    evs.

(** The steps for a feed that delivers [evs] and is then closed by the
    timer while [hasNext()] is pending. *)
Definition pull_steps (closed_error : option Error) (evs : list ChangeEvent)
  : list Step :=
  deliveries evs ++
  [TimerFires;
   HasNextSettles (match closed_error with
                   | None => Resolves false
                   | Some e => Rejects e
                   end)].

(** ** The script *)

(** [closeChangeStream(timeInMs = 60000, changeStream)]: a promise that
    resolves when the timer has run its callback. *)
Record Timer : Type := mkTimer {
  fires_at : Z;
  callback : M unit
}.

(** The delay [setTimeout(callback, delay)] really waits: Node replaces a
    delay below 1 or above 2^31 - 1 by 1 ms. *)
Definition setTimeout_delay (delay : Z) : Z :=
  if (Z.ltb delay 1 || Z.ltb 2147483647 delay)%bool then 1%Z else delay.

Definition closeChangeStream (timeInMs : option Z) (changeStream : ChangeStream)
  : Timer :=
  {| fires_at := setTimeout_delay (with_default 60000%Z timeInMs);
     callback :=
       console_log (LText "Closing the change stream") ;;
       changeStream_close |}.

Definition monitorListingsUsingEventEmitter (env : Env)
  (timeInMs : option Z) (pipeline : option Pipeline) : M unit :=
  let timeInMs := with_default 60000%Z timeInMs in
  let pipeline := with_default [] pipeline in
  changeStream <- watch env "sample_airbnb" "listingsAndReviews" pipeline ;;
  let listener := fun next => console_log (LDoc next) in
  let timer := closeChangeStream (Some timeInMs) changeStream in
  emit_each listener (arrivals_before (fires_at timer) changeStream) ;;
  callback timer.

Inductive Await : Type :=
| AwaitHasNext
| AwaitNext.

(** [while (await changeStream.hasNext()) { console.log(await changeStream.next()); }]
    run against the steps of the event loop.  A step that does not
    settle the pending await, or the end of the steps, leaves the loop
    suspended. *)
Fixpoint hasNext_loop (on_timer : M unit) (aw : Await) (steps : list Step)
  (st : St) : result unit * St :=
  match steps with
  | [] => (Waiting, st)
  | TimerFires :: rest =>
      hasNext_loop on_timer aw rest (snd (on_timer st))
  | HasNextSettles r :: rest =>
      match aw with
      | AwaitHasNext =>
          match r with
          | Resolves true => hasNext_loop on_timer AwaitNext rest st
          | Resolves false => (Returned tt, st)
          | Rejects e => (Threw e, st)
          end
      | AwaitNext => (Waiting, st)
      end
  | NextSettles r :: rest =>
      match aw with
      | AwaitNext =>
          match r with
          | Resolves doc =>
              hasNext_loop on_timer AwaitHasNext rest
                (snd (console_log (LDoc doc) st))
          | Rejects e => (Threw e, st)
          end
      | AwaitHasNext => (Waiting, st)
      end
  end.

Definition isClosed : M bool :=
  fun st => (Returned (changeStream_closed st), st).

(** The [try]/[catch] of [monitorListingsUsingHasNext]. *)
Definition hasNext_try_catch (on_timer : M unit) (steps : list Step) : M unit :=
  try_catch
    (hasNext_loop on_timer AwaitHasNext steps)
    (fun error =>
       closed <- isClosed ;;
       if closed
       then console_log
              (LText "The change stream is closed. Will not wait on any more changes.")
       else throw error).

Definition monitorListingsUsingHasNext (env : Env)
  (timeInMs : option Z) (pipeline : option Pipeline) : M unit :=
  let timeInMs := with_default 60000%Z timeInMs in
  let pipeline := with_default [] pipeline in
  changeStream <- watch env "sample_airbnb" "listingsAndReviews" pipeline ;;
  let timer := closeChangeStream (Some timeInMs) changeStream in
  hasNext_try_catch (callback timer)
    (pull_steps (after_close env)
       (arrivals_before (fires_at timer) changeStream)).

Definition monitorListingsUsingStreamAPI (env : Env)
  (timeInMs : option Z) (pipeline : option Pipeline) : M unit :=
  let timeInMs := with_default 60000%Z timeInMs in
  let pipeline := with_default [] pipeline in
  changeStream <- watch env "sample_airbnb" "listingsAndReviews" pipeline ;;
  let timer := closeChangeStream (Some timeInMs) changeStream in
  pipe (arrivals_before (fires_at timer) changeStream)
    {| write := fun doc cb => console_log (LDoc doc) ;; cb tt |} ;;
  callback timer.

(** [process.env.MONGO_DB_URI || 'mongodb://localhost:27017']: an unset
    and an empty variable both give the default. *)
Definition uri (env : Env) : string :=
  match MONGO_DB_URI env with
  | Some s => if String.eqb s "" then "mongodb://localhost:27017" else s
  | None => "mongodb://localhost:27017"
  end.

(** The [pipeline] literal of [main]. *)
Definition pipeline_of_main : Pipeline :=
  [Match [("operationType", VString "insert");
          ("fullDocument.address.country", VString "Australia");
          ("fullDocument.address.market", VString "Sydney")]].

(** [main] with the monitoring call left open: the source offers three,
    two of them commented out. *)
Definition main_with (monitor : M unit) (env : Env) : M unit :=
  fun st =>
    try_finally
      (connect env ;;
       console_log (LText "Connected successfully to mongodb") ;;
       monitor)
      (client_close env)
      (client_op (OpNew (uri env)) st).

(** [main] as written: option one, called without a pipeline. *)
Definition main (env : Env) : M unit :=
  let pipeline := pipeline_of_main in
  main_with (monitorListingsUsingEventEmitter env (Some 30000%Z) None) env.

(** [main().catch(console.error)] *)
Definition script (env : Env) : M unit :=
  try_catch (main env) (fun e => console_log (LError e)).

(** The events a stream opened with [pipeline] hands to the script
    before a timer of [timeInMs] closes it. *)
Definition delivered (env : Env) (timeInMs : Z) (pipeline : Pipeline)
  : list ChangeEvent :=
  map snd
    (filter (fun te => Z.ltb (fst te) timeInMs)
       (filter (fun te => passes pipeline (snd te)) (feed env))).

(** [ls] appended to the console, nothing else touched. *)
Definition log_lines (ls : list Line) (st : St) : St :=
  {| console := console st ++ ls;
     client_ops := client_ops st;
     changeStream_closed := changeStream_closed st |}.

Definition closing_line : Line := LText "Closing the change stream".

Definition closed_line : Line :=
  LText "The change stream is closed. Will not wait on any more changes.".

(** The state after the timer callback of [closeChangeStream]. *)
Definition timer_ran (st : St) : St :=
  {| console := console st ++ [closing_line];
     client_ops := client_ops st;
     changeStream_closed := true |}.

(** The state after [collection.watch(pipeline)]. *)
Definition opened (pipeline : Pipeline) (st : St) : St :=
  client_op (OpWatch "sample_airbnb" "listingsAndReviews" pipeline) st.

(** ** Sample runs *)

Definition listing (operationType country market : string) : ChangeEvent :=
  VObject
    [("operationType", VString operationType);
     ("fullDocument",
      VObject
        [("name", VString "Opera House Views");
         ("address",
          VObject [("country", VString country); ("market", VString market)])])].

(** A new listing in Sydney after 0.1 s, a deletion in Paris after 0.2 s,
    and a second Sydney listing after 40 s. *)
Definition sample_env : Env :=
  {| MONGO_DB_URI := None;
     connect_outcome := None;
     close_outcome := None;
     feed := [(100%Z, listing "insert" "Australia" "Sydney");
              (200%Z, listing "delete" "France" "Paris");
              (40000%Z, listing "insert" "Australia" "Sydney")];
     after_close := Some "ChangeStream is closed" |}.

(** The server cannot be reached. *)
Definition unreachable_env : Env :=
  {| MONGO_DB_URI := Some "mongodb://db.example:27017";
     connect_outcome := Some "ECONNREFUSED";
     close_outcome := None;
     feed := [];
     after_close := None |}.

Definition sample_timer : M unit :=
  callback (closeChangeStream (Some 30000%Z) {| cs_events := [] |}).

(** The timer runs while [next()] is pending, then [next()] rejects. *)
Definition steps_closed_then_error : list Step :=
  [HasNextSettles (Resolves true);
   NextSettles (Resolves (VNumber 1));
   HasNextSettles (Resolves true);
   TimerFires;
   NextSettles (Rejects "ChangeStream is closed")].

(** [hasNext()] rejects while the stream is open. *)
Definition steps_error_while_open : list Step :=
  [HasNextSettles (Resolves true);
   NextSettles (Resolves (VNumber 1));
   HasNextSettles (Rejects "connection reset")].

(** ** The pull monitor against any behaviour of the driver *)

(** [monitorListingsUsingHasNext] with the event loop's steps given from
    outside instead of derived from the feed: the same body, run against
    a driver that may reject, end the stream, or never settle. *)
Definition monitorListingsUsingHasNext_against (steps : list Step) (env : Env)
  (timeInMs : option Z) (pipeline : option Pipeline) : M unit :=
  let timeInMs := with_default 60000%Z timeInMs in
  let pipeline := with_default [] pipeline in
  changeStream <- watch env "sample_airbnb" "listingsAndReviews" pipeline ;;
  let timer := closeChangeStream (Some timeInMs) changeStream in
  hasNext_try_catch (callback timer) steps.

(** The documents the driver resolves [next()] with, in step order. *)
Fixpoint next_docs (steps : list Step) : list ChangeEvent :=
  match steps with
  | [] => []
  | NextSettles (Resolves doc) :: rest => doc :: next_docs rest
  | _ :: rest => next_docs rest
  end.

(** A state in which the change stream has been closed. *)
Definition st_closed : St :=
  {| console := [closing_line]; client_ops := []; changeStream_closed := true |}.

(** ** The emitter and stream monitors against any behaviour of the driver *)

(** What the driver does while [monitorListingsUsingEventEmitter] awaits
    the timer: it emits ['change'], it emits ['error'], or the timer
    runs. *)
Inductive Emission : Type :=
| EmitsChange (ev : ChangeEvent)
| EmitsError (e : Error)
| EmitterTimerFires.

(** The await of [closeChangeStream] in emitter mode.  The script
    registers a listener for ['change'] only: an ['error'] emitted with
    no listener is thrown by [emit] outside every [try] of the script,
    the process ends on the uncaught exception and the awaited promise
    never settles.  The same holds for an error of the listener. *)
Fixpoint emitter_loop (listener : ChangeEvent -> M unit) (on_timer : M unit)
  (emissions : list Emission) (st : St) : result unit * St :=
  match emissions with
  | [] => (Waiting, st)
  | EmitsChange ev :: rest =>
      match listener ev st with
      | (Returned _, st') => emitter_loop listener on_timer rest st'
      | (_, st') => (Waiting, st')
      end
  | EmitsError e :: _ => (Waiting, st)
  | EmitterTimerFires :: _ => on_timer st
  end.

(** [monitorListingsUsingEventEmitter] with the emissions of the driver
    given from outside instead of derived from the feed. *)
Definition monitorListingsUsingEventEmitter_against
  (emissions : list Emission) (env : Env)
  (timeInMs : option Z) (pipeline : option Pipeline) : M unit :=
  let timeInMs := with_default 60000%Z timeInMs in
  let pipeline := with_default [] pipeline in
  changeStream <- watch env "sample_airbnb" "listingsAndReviews" pipeline ;;
  let listener := fun next => console_log (LDoc next) in
  let timer := closeChangeStream (Some timeInMs) changeStream in
  emitter_loop listener (callback timer) emissions.

(** [monitorListingsUsingStreamAPI] on the documents the readable side
    hands over before the timer runs. *)
Definition monitorListingsUsingStreamAPI_against
  (docs : list ChangeEvent) (env : Env)
  (timeInMs : option Z) (pipeline : option Pipeline) : M unit :=
  let timeInMs := with_default 60000%Z timeInMs in
  let pipeline := with_default [] pipeline in
  changeStream <- watch env "sample_airbnb" "listingsAndReviews" pipeline ;;
  let timer := closeChangeStream (Some timeInMs) changeStream in
  pipe docs {| write := fun doc cb => console_log (LDoc doc) ;; cb tt |} ;;
  callback timer.

(** [main().catch(console.error)] with [main] as written, against the
    emissions of the driver. *)
Definition script_against (emissions : list Emission) (env : Env) : M unit :=
  try_catch
    (main_with
       (monitorListingsUsingEventEmitter_against emissions env
          (Some 30000%Z) None)
       env)
    (fun e => console_log (LError e)).


(** A run of [main] that opened one change stream with [p], printed
    [evs], left the change stream closed and closed the client. *)
Definition clean_run (env : Env) (p : Pipeline) (evs : list ChangeEvent)
  (st : St) (run : result unit * St) : Prop :=
  fst run = settle (close_outcome env) /\
  client_ops (snd run) =
    client_ops st ++
    [OpNew (uri env); OpConnect;
     OpWatch "sample_airbnb" "listingsAndReviews" p; OpClose] /\
  printed_docs (console (snd run)) = printed_docs (console st) ++ evs /\
  changeStream_closed (snd run) = true.



(** * Properties *)

(** ** Console bookkeeping *)

Lemma printed_docs_app (a b : list Line) :
  printed_docs (a ++ b) = printed_docs a ++ printed_docs b.
Proof. unfold printed_docs. apply flat_map_app. Qed.

Lemma printed_docs_LDoc (evs : list ChangeEvent) :
  printed_docs (map LDoc evs) = evs.
Proof.
  induction evs as [|ev evs IH]; simpl; [reflexivity|].
  now rewrite IH.
Qed.

Lemma log_lines_nil (st : St) : log_lines [] st = st.
Proof. destruct st; unfold log_lines; simpl. now rewrite app_nil_r. Qed.

Lemma log_lines_app (a b : list Line) (st : St) :
  log_lines b (log_lines a st) = log_lines (a ++ b) st.
Proof. unfold log_lines; simpl. now rewrite app_assoc. Qed.

Lemma console_log_run (l : Line) (st : St) :
  console_log l st = (Returned tt, log_lines [l] st).
Proof. reflexivity. Qed.

Lemma timer_callback_run (t : option Z) (cs : ChangeStream) (st : St) :
  callback (closeChangeStream t cs) st = (Returned tt, timer_ran st).
Proof. reflexivity. Qed.

Lemma timer_ran_log_lines (ls : list Line) (st : St) :
  timer_ran (log_lines ls st) =
  {| console := console st ++ ls ++ [closing_line];
     client_ops := client_ops st;
     changeStream_closed := true |}.
Proof. unfold timer_ran, log_lines; simpl. now rewrite app_assoc. Qed.

(** ** The three consumption styles on a list of events *)

Lemma emit_each_log (evs : list ChangeEvent) (st : St) :
  emit_each (fun next => console_log (LDoc next)) evs st =
  (Returned tt, log_lines (map LDoc evs) st).
Proof.
  revert st. induction evs as [|ev evs IH]; intros st; simpl.
  - unfold ret. now rewrite log_lines_nil.
  - unfold bind. rewrite console_log_run, IH, log_lines_app. reflexivity.
Qed.

Lemma pipe_log (docs : list ChangeEvent) (st : St) :
  pipe docs {| write := fun doc cb => console_log (LDoc doc) ;; cb tt |} st =
  (Returned tt, log_lines (map LDoc docs) st).
Proof.
  revert st. induction docs as [|doc docs IH]; intros st; simpl.
  - unfold ret. now rewrite log_lines_nil.
  - unfold bind. rewrite console_log_run, IH, log_lines_app. reflexivity.
Qed.

(** The pull loop walks through deliveries, printing each event, and
    goes on with the steps that follow. *)
Lemma hasNext_loop_deliveries (on_timer : M unit) (evs : list ChangeEvent)
  (rest : list Step) (st : St) :
  hasNext_loop on_timer AwaitHasNext (deliveries evs ++ rest) st =
  hasNext_loop on_timer AwaitHasNext rest (log_lines (map LDoc evs) st).
Proof.
  revert st. induction evs as [|ev evs IH]; intros st; simpl.
  - now rewrite log_lines_nil.
  - rewrite IH. f_equal.
    apply (log_lines_app [LDoc ev] (map LDoc evs) st).
Qed.

(** ** The three monitor functions on a feed *)

Lemma emitter_run (env : Env) (timeInMs : option Z)
  (pipeline : option Pipeline) (st : St) :
  monitorListingsUsingEventEmitter env timeInMs pipeline st =
  (Returned tt,
   timer_ran
     (log_lines
        (map LDoc (delivered env (setTimeout_delay (with_default 60000%Z timeInMs))
                     (with_default [] pipeline)))
        (opened (with_default [] pipeline) st))).
Proof.
  unfold monitorListingsUsingEventEmitter, bind, watch. simpl.
  rewrite emit_each_log. reflexivity.
Qed.

Lemma stream_run (env : Env) (timeInMs : option Z)
  (pipeline : option Pipeline) (st : St) :
  monitorListingsUsingStreamAPI env timeInMs pipeline st =
  (Returned tt,
   timer_ran
     (log_lines
        (map LDoc (delivered env (setTimeout_delay (with_default 60000%Z timeInMs))
                     (with_default [] pipeline)))
        (opened (with_default [] pipeline) st))).
Proof.
  unfold monitorListingsUsingStreamAPI, bind, watch. simpl.
  rewrite pipe_log. reflexivity.
Qed.

Lemma hasNext_run (env : Env) (timeInMs : option Z)
  (pipeline : option Pipeline) (st : St) :
  monitorListingsUsingHasNext env timeInMs pipeline st =
  (Returned tt,
   log_lines
     (match after_close env with
      | None => []
      | Some _ => [closed_line]
      end)
     (timer_ran
        (log_lines
           (map LDoc (delivered env (setTimeout_delay (with_default 60000%Z timeInMs))
                        (with_default [] pipeline)))
           (opened (with_default [] pipeline) st)))).
Proof.
  unfold monitorListingsUsingHasNext, bind, watch. simpl.
  unfold hasNext_try_catch, try_catch, pull_steps.
  rewrite hasNext_loop_deliveries. simpl.
  destruct (after_close env) as [e|]; simpl.
  - reflexivity.
  - now rewrite log_lines_nil.
Qed.

Lemma printed_docs_after_run (evs : list ChangeEvent) (tail : list Line)
  (p : Pipeline) (st : St) :
  printed_docs tail = [] ->
  printed_docs
    (console (log_lines tail (timer_ran (log_lines (map LDoc evs) (opened p st))))) =
  printed_docs (console st) ++ evs.
Proof.
  intros Htail. simpl.
  rewrite !printed_docs_app, printed_docs_LDoc, Htail. simpl.
  now rewrite !app_nil_r.
Qed.

Lemma printed_docs_after_timer (evs : list ChangeEvent) (p : Pipeline)
  (st : St) :
  printed_docs (console (timer_ran (log_lines (map LDoc evs) (opened p st)))) =
  printed_docs (console st) ++ evs.
Proof.
  rewrite <- (log_lines_nil (timer_ran _)).
  now apply printed_docs_after_run.
Qed.

(** A fault of the feed while the stream is open ends the pull monitor:
    the events received so far are printed and the error goes to the
    caller.  Nothing in the script opens the stream again. *)
Lemma hasNext_fault_rethrown (on_timer : M unit) (evs : list ChangeEvent)
  (e : Error) (st : St) :
  changeStream_closed st = false ->
  hasNext_try_catch on_timer
    (deliveries evs ++ [HasNextSettles (Rejects e)]) st =
  (Threw e, log_lines (map LDoc evs) st).
Proof.
  intros Hopen. unfold hasNext_try_catch, try_catch.
  rewrite hasNext_loop_deliveries. simpl.
  unfold bind, isClosed. simpl. now rewrite Hopen.
Qed.

(** An error of the pull loop is one the driver rejected [hasNext()] or
    [next()] with. *)
Lemma hasNext_loop_throws_inv (on_timer : M unit) (steps : list Step) :
  forall (aw : Await) (st st' : St) (e : Error),
    hasNext_loop on_timer aw steps st = (Threw e, st') ->
    In (HasNextSettles (Rejects e)) steps \/ In (NextSettles (Rejects e)) steps.
Proof.
  induction steps as [|s steps IH]; intros aw st st' e H; simpl in H.
  - discriminate.
  - destruct s as [|r|r].
    + destruct (IH _ _ _ _ H); [left | right]; now right.
    + destruct aw; [|discriminate].
      destruct r as [[|]|e0].
      * destruct (IH _ _ _ _ H); [left | right]; now right.
      * discriminate.
      * injection H as <- _. left. now left.
    + destruct aw; [discriminate|].
      destruct r as [doc|e0].
      * destruct (IH _ _ _ _ H); [left | right]; now right.
      * injection H as <- _. right. now left.
Qed.

(** ** Claims *)



(** C3. For every feed, time window and pipeline, the event-emitter
    monitor, the pull monitor and the stream monitor print the same
    sequence of documents. *)
Theorem three_styles_print_same_documents (env : Env) (timeInMs : option Z)
  (pipeline : option Pipeline) (st : St) :
  let docs_of (r : result unit * St) := printed_docs (console (snd r)) in
  docs_of (monitorListingsUsingEventEmitter env timeInMs pipeline st) =
    docs_of (monitorListingsUsingHasNext env timeInMs pipeline st) /\
  docs_of (monitorListingsUsingHasNext env timeInMs pipeline st) =
    docs_of (monitorListingsUsingStreamAPI env timeInMs pipeline st).
Proof.
  cbv zeta. rewrite hasNext_run, emitter_run, stream_run. cbn [snd].
  rewrite printed_docs_after_timer, printed_docs_after_run.
  - split; reflexivity.
  - now destruct (after_close env).
Qed.

(** [main] as written completes in every environment. *)
Lemma main_completes (env : Env) (st : St) : fst (main env st) <> Waiting.
Proof.
  unfold main, main_with, try_finally, bind, connect, client_close.
  destruct (connect_outcome env) as [e|]; simpl.
  - destruct (close_outcome env); simpl; discriminate.
  - rewrite emitter_run.
    destruct (close_outcome env); simpl; discriminate.
Qed.

(** The empty pipeline lets every change through. *)
Lemma empty_pipeline_passes_all (l : list (Z * ChangeEvent)) :
  filter (fun te => passes [] (snd te)) l = l.
Proof.
  induction l as [|te l IH]; simpl; [reflexivity|].
  f_equal. exact IH.
Qed.

(** Every finite sequence of events is what some connection delivers:
    the statements over [delivered] range over all sequences. *)
Lemma every_sequence_is_delivered (evs : list ChangeEvent) :
  exists env, delivered env 60000%Z [] = evs.
Proof.
  exists {| MONGO_DB_URI := None;
            connect_outcome := None;
            close_outcome := None;
            feed := map (fun ev => (0%Z, ev)) evs;
            after_close := None |}.
  unfold delivered. cbn [feed]. rewrite empty_pipeline_passes_all.
  induction evs as [|ev evs IH]; simpl; [reflexivity|].
  now rewrite IH.
Qed.

(** C9. When [connect()] succeeds, [main] opens one change stream, with
    the empty pipeline, and prints every change of the collection that
    arrives within the 30000 ms window, whatever its operation type or
    address: the pipeline literal of [main] is not passed on. *)
Theorem main_prints_every_event (env : Env) (st : St) :
  connect_outcome env = None ->
  let st' := snd (main env st) in
  client_ops st' =
    client_ops st ++
    [OpNew (uri env); OpConnect;
     OpWatch "sample_airbnb" "listingsAndReviews" []; OpClose] /\
  printed_docs (console st') =
    printed_docs (console st) ++
    map snd (filter (fun te => Z.ltb (fst te) 30000%Z) (feed env)).
Proof.
  intros Hconn. cbv zeta.
  unfold main, main_with, try_finally, bind, connect, client_close.
  rewrite Hconn. simpl. rewrite emitter_run.
  destruct (close_outcome env); simpl;
    unfold delivered; rewrite empty_pipeline_passes_all;
    rewrite !printed_docs_app, printed_docs_LDoc; simpl;
    rewrite <- !app_assoc; simpl; rewrite ?app_nil_r; split; reflexivity.
Qed.

Lemma main_prints_every_event_witness :
  connect_outcome sample_env = None /\
  client_ops (snd (main sample_env st0)) =
    [OpNew "mongodb://localhost:27017"; OpConnect;
     OpWatch "sample_airbnb" "listingsAndReviews" []; OpClose] /\
  printed_docs (console (snd (main sample_env st0))) =
    [listing "insert" "Australia" "Sydney"; listing "delete" "France" "Paris"].
Proof.
  split; [reflexivity|].
  apply (main_prints_every_event sample_env st0). reflexivity.
Defined.

(** The deletion in Paris that [main] prints does not pass the pipeline
    literal: a monitor given that pipeline leaves it out. *)
Example pipeline_of_main_would_filter :
  passes pipeline_of_main (listing "delete" "France" "Paris") = false /\
  printed_docs
    (console
       (snd (main_with
               (monitorListingsUsingEventEmitter sample_env (Some 30000%Z)
                  (Some pipeline_of_main))
               sample_env st0))) =
  [listing "insert" "Australia" "Sydney"].
Proof. split; reflexivity. Qed.

(** C10. When the pull loop throws [e] (the driver rejected [hasNext()]
    or [next()]) in a state where the change stream is closed, the
    monitor's [try]/[catch] logs one line and returns normally; when the
    stream is not closed it throws the same [e], with the state as the
    loop left it. *)
Theorem hasNext_catch_swallows_iff_closed (on_timer : M unit)
  (steps : list Step) (st : St) (e : Error) (st' : St) :
  hasNext_loop on_timer AwaitHasNext steps st = (Threw e, st') ->
  hasNext_try_catch on_timer steps st =
  if changeStream_closed st'
  then (Returned tt, log_lines [closed_line] st')
  else (Threw e, st').
Proof.
  intros Hloop. unfold hasNext_try_catch, try_catch.
  rewrite Hloop. unfold bind, isClosed.
  now destruct (changeStream_closed st').
Qed.

Lemma hasNext_catch_swallows_iff_closed_witness :
  hasNext_loop sample_timer AwaitHasNext steps_closed_then_error st0 =
    (Threw "ChangeStream is closed",
     {| console := [LDoc (VNumber 1); closing_line];
        client_ops := [];
        changeStream_closed := true |}) /\
  hasNext_try_catch sample_timer steps_closed_then_error st0 =
    (Returned tt,
     {| console := [LDoc (VNumber 1); closing_line; closed_line];
        client_ops := [];
        changeStream_closed := true |}).
Proof.
  split; [reflexivity|].
  apply (hasNext_catch_swallows_iff_closed sample_timer
           steps_closed_then_error st0 "ChangeStream is closed"
           {| console := [LDoc (VNumber 1); closing_line];
              client_ops := [];
              changeStream_closed := true |}).
  reflexivity.
Defined.

(** The other branch on a run: the error of an open stream reaches the
    caller unchanged. *)
Example hasNext_rethrows_while_open :
  hasNext_try_catch sample_timer steps_error_while_open st0 =
  (Threw "connection reset",
   {| console := [LDoc (VNumber 1)];
      client_ops := [];
      changeStream_closed := false |}).
Proof. reflexivity. Qed.

(** ** Further properties of [main] and the script *)

(** The state in which the monitor of [main] starts when [connect()]
    has resolved. *)
Lemma main_with_connected (env : Env) (monitor : M unit) (st : St) :
  connect_outcome env = None ->
  main_with monitor env st =
  try_finally monitor (client_close env)
    (log_lines [LText "Connected successfully to mongodb"]
       (client_op OpConnect (client_op (OpNew (uri env)) st))).
Proof.
  intros Hconn. unfold main_with, try_finally, bind, connect.
  rewrite Hconn. reflexivity.
Qed.

(** X1. [main] as written resolves when [connect()] and [client.close()]
    resolve; it rejects with the error of [client.close()] when that one
    rejects, also when [connect()] had rejected before (the error of the
    [finally] block replaces the earlier one); otherwise it rejects with
    the error of [connect()]. *)
Theorem main_outcome (env : Env) (st : St) :
  fst (main env st) =
  match close_outcome env, connect_outcome env with
  | Some e, _ => Threw e
  | None, Some e => Threw e
  | None, None => Returned tt
  end.
Proof.
  unfold main, main_with, try_finally, bind, connect, client_close.
  destruct (connect_outcome env) as [e|]; simpl.
  - now destruct (close_outcome env).
  - rewrite emitter_run. now destruct (close_outcome env).
Qed.

(** X3. When [connect()] rejects, the monitor of [main] is never run,
    whichever it is: nothing is printed, no change stream is opened, the
    client is constructed, connected to and closed, and [main] rejects
    with the error of [connect()], or with that of [client.close()] if
    it rejects too. *)
Theorem main_connect_failure (env : Env) (monitor : M unit) (st : St)
  (e : Error) :
  connect_outcome env = Some e ->
  main_with monitor env st =
  (Threw (with_default e (close_outcome env)),
   {| console := console st;
      client_ops := client_ops st ++ [OpNew (uri env); OpConnect; OpClose];
      changeStream_closed := changeStream_closed st |}).
Proof.
  intros Hconn.
  unfold main_with, try_finally, bind, connect, client_close.
  rewrite Hconn. simpl.
  destruct (close_outcome env); unfold client_op; simpl;
    rewrite <- !app_assoc; reflexivity.
Qed.

Lemma main_connect_failure_witness :
  connect_outcome unreachable_env = Some "ECONNREFUSED" /\
  main_with (monitorListingsUsingHasNext unreachable_env None None)
    unreachable_env st0 =
  (Threw "ECONNREFUSED",
   {| console := [];
      client_ops := [OpNew "mongodb://db.example:27017"; OpConnect; OpClose];
      changeStream_closed := false |}).
Proof.
  split; [reflexivity|].
  apply (main_connect_failure unreachable_env
           (monitorListingsUsingHasNext unreachable_env None None) st0
           "ECONNREFUSED").
  reflexivity.
Defined.

(** X4. The client of [main] is constructed first, with the connection
    string of the environment variable when it is set and not empty, and
    with the local default when it is unset or empty: never with an
    empty string. *)
Theorem client_uri_never_empty (env : Env) (st : St) :
  uri env <> "" /\
  (exists rest,
     client_ops (snd (main env st)) =
     client_ops st ++ OpNew (uri env) :: rest) /\
  (forall s, MONGO_DB_URI env = Some s -> s <> "" -> uri env = s) /\
  (MONGO_DB_URI env = None \/ MONGO_DB_URI env = Some "" ->
   uri env = "mongodb://localhost:27017").
Proof.
  split; [|split; [|split]].
  - unfold uri. destruct (MONGO_DB_URI env) as [s|]; [|discriminate].
    destruct (String.eqb s "") eqn:Hs; [discriminate|].
    now apply String.eqb_neq.
  - destruct (connect_outcome env) as [e|] eqn:Hconn.
    + unfold main, main_with, try_finally, bind, connect, client_close.
      rewrite Hconn. simpl.
      exists [OpConnect; OpClose].
      destruct (close_outcome env); unfold client_op; simpl;
        rewrite <- !app_assoc; reflexivity.
    + unfold main. cbv zeta.
      rewrite (main_with_connected env _ st Hconn).
      unfold try_finally. rewrite emitter_run.
      exists [OpConnect; OpWatch "sample_airbnb" "listingsAndReviews" []; OpClose].
      unfold client_close.
      destruct (settle (close_outcome env)); unfold opened, client_op; simpl;
        rewrite <- !app_assoc; reflexivity.
  - intros s Hs Hne. unfold uri. rewrite Hs.
    apply String.eqb_neq in Hne. now rewrite Hne.
  - intros [H|H]; unfold uri; now rewrite H.
Qed.

Lemma client_uri_never_empty_witness :
  MONGO_DB_URI unreachable_env = Some "mongodb://db.example:27017" /\
  "mongodb://db.example:27017" <> "" /\
  uri unreachable_env = "mongodb://db.example:27017".
Proof.
  split; [reflexivity|]. split; [discriminate|].
  apply (proj1 (proj2 (proj2 (client_uri_never_empty unreachable_env st0)))
           "mongodb://db.example:27017").
  - reflexivity.
  - discriminate.
Defined.

(** What a monitor that ends like the three of the script leaves behind
    when [main] runs it after a successful [connect()]. *)
Lemma main_with_monitor_run (env : Env) (monitor : M unit) (st : St)
  (p : Pipeline) (evs : list ChangeEvent) (tail : list Line) :
  connect_outcome env = None ->
  printed_docs tail = [] ->
  (forall s, monitor s =
             (Returned tt,
              log_lines tail (timer_ran (log_lines (map LDoc evs) (opened p s))))) ->
  let run := main_with monitor env st in
  fst run = settle (close_outcome env) /\
  client_ops (snd run) =
    client_ops st ++
    [OpNew (uri env); OpConnect;
     OpWatch "sample_airbnb" "listingsAndReviews" p; OpClose] /\
  printed_docs (console (snd run)) = printed_docs (console st) ++ evs /\
  changeStream_closed (snd run) = true.
Proof.
  intros Hconn Htail Hrun. cbv zeta.
  rewrite (main_with_connected env monitor st Hconn).
  unfold try_finally. rewrite Hrun. unfold client_close.
  assert (Hdocs :
    printed_docs
      (console
         (client_op OpClose
            (log_lines tail
               (timer_ran
                  (log_lines (map LDoc evs)
                     (opened p
                        (log_lines [LText "Connected successfully to mongodb"]
                           (client_op OpConnect
                              (client_op (OpNew (uri env)) st)))))))))
    = printed_docs (console st) ++ evs).
  { change (console (client_op OpClose ?s)) with (console s).
    rewrite printed_docs_after_run by exact Htail.
    simpl. rewrite printed_docs_app. simpl. now rewrite app_nil_r. }
  destruct (close_outcome env); simpl settle; cbn iota; cbn [fst snd];
    (split; [reflexivity|]); (split; [|split; [exact Hdocs | reflexivity]]);
    unfold opened, client_op; simpl; rewrite <- !app_assoc; reflexivity.
Qed.

(** X6. The stream monitor and the event-emitter monitor are
    indistinguishable: same outcome, same console, same client
    operations.  The pull monitor differs from them by one console line
    at most, printed last, and only when the driver rejects the
    [hasNext()] that is pending when the timer closes the stream. *)
Theorem monitors_differ_by_closed_line (env : Env) (timeInMs : option Z)
  (pipeline : option Pipeline) (st : St) :
  monitorListingsUsingStreamAPI env timeInMs pipeline st =
    monitorListingsUsingEventEmitter env timeInMs pipeline st /\
  monitorListingsUsingHasNext env timeInMs pipeline st =
    (Returned tt,
     log_lines
       (match after_close env with
        | None => []
        | Some _ => [closed_line]
        end)
       (snd (monitorListingsUsingEventEmitter env timeInMs pipeline st))).
Proof.
  rewrite hasNext_run, emitter_run, stream_run. split; reflexivity.
Qed.

(** ** The pull loop against any behaviour of the driver *)

Lemma printed_docs_timer_ran (st : St) :
  printed_docs (console (timer_ran st)) = printed_docs (console st).
Proof. simpl. rewrite printed_docs_app. simpl. now rewrite app_nil_r. Qed.

(** What the loop keeps, whatever the steps: it performs no operation on
    the client, a closed stream stays closed, and the documents it
    prints are the first ones [next()] resolved, in order. *)
Lemma hasNext_loop_keeps (t : option Z) (cs : ChangeStream)
  (steps : list Step) :
  forall (aw : Await) (st : St),
    let run := hasNext_loop (callback (closeChangeStream t cs)) aw steps st in
    client_ops (snd run) = client_ops st /\
    (changeStream_closed st = true -> changeStream_closed (snd run) = true) /\
    exists k,
      printed_docs (console (snd run)) =
      printed_docs (console st) ++ firstn k (next_docs steps).
Proof.
  induction steps as [|s steps IH]; intros aw st; cbv zeta.
  - simpl. repeat split; [easy|]. exists 0%nat. simpl. now rewrite app_nil_r.
  - assert (Hstop : forall r : result unit,
              client_ops (snd (r, st)) = client_ops st /\
              (changeStream_closed st = true ->
               changeStream_closed (snd (r, st)) = true) /\
              exists k,
                printed_docs (console (snd (r, st))) =
                printed_docs (console st) ++ firstn k (next_docs (s :: steps))).
    { intros r. repeat split; [easy|].
      exists 0%nat. simpl. now rewrite app_nil_r. }
    destruct s as [|r|r]; cbn [hasNext_loop].
    + rewrite timer_callback_run. cbn [snd].
      destruct (IH aw (timer_ran st)) as (Hops & Hclosed & k & Hdocs).
      split; [exact Hops|]. split; [intros _; now apply Hclosed|].
      exists k. rewrite Hdocs, printed_docs_timer_ran. reflexivity.
    + destruct aw; [|apply Hstop].
      destruct r as [[|]|e]; [|apply Hstop|apply Hstop].
      apply (IH AwaitNext st).
    + destruct aw; [apply Hstop|].
      destruct r as [doc|e]; [|apply Hstop].
      destruct (IH AwaitHasNext (snd (console_log (LDoc doc) st)))
        as (Hops & Hclosed & k & Hdocs).
      split; [exact Hops|]. split; [exact Hclosed|].
      exists (S k). rewrite Hdocs. simpl.
      rewrite printed_docs_app. simpl. now rewrite <- app_assoc.
Qed.

(** X7. Whatever the driver does, the [try]/[catch] loop of the pull
    monitor performs no operation on the client, never reopens a closed
    change stream, and prints only documents that [next()] resolved:
    the first so many of them, once each and in the order of the
    answers. *)
Theorem pull_loop_prints_only_next_documents (t : option Z)
  (cs : ChangeStream) (steps : list Step) (st : St) :
  let run := hasNext_try_catch (callback (closeChangeStream t cs)) steps st in
  client_ops (snd run) = client_ops st /\
  (changeStream_closed st = true -> changeStream_closed (snd run) = true) /\
  exists k,
    printed_docs (console (snd run)) =
    printed_docs (console st) ++ firstn k (next_docs steps).
Proof.
  cbv zeta. unfold hasNext_try_catch, try_catch.
  pose proof (hasNext_loop_keeps t cs steps AwaitHasNext st) as H.
  cbv zeta in H.
  destruct (hasNext_loop _ AwaitHasNext steps st) as [[[]|e|] st1];
    cbn [snd] in H; try exact H.
  destruct H as (Hops & Hclosed & k & Hdocs).
  unfold bind, isClosed.
  destruct (changeStream_closed st1) eqn:Hc; cbn [snd].
  - split; [exact Hops|]. split; [intros _; exact Hc|].
    exists k. simpl. rewrite printed_docs_app, Hdocs. simpl.
    now rewrite app_nil_r.
  - split; [exact Hops|]. split; [|now exists k].
    intros Hst. simpl. rewrite Hc. exact (Hclosed Hst).
Qed.

(** X8. An error the pull monitor's [try]/[catch] throws is one the
    driver rejected [hasNext()] or [next()] with, and at that moment the
    change stream is not closed. *)
Theorem pull_throws_only_driver_errors_while_open (on_timer : M unit)
  (steps : list Step) (st : St) (e : Error) (st' : St) :
  hasNext_try_catch on_timer steps st = (Threw e, st') ->
  changeStream_closed st' = false /\
  (In (HasNextSettles (Rejects e)) steps \/ In (NextSettles (Rejects e)) steps).
Proof.
  unfold hasNext_try_catch, try_catch.
  destruct (hasNext_loop on_timer AwaitHasNext steps st) as [[[]|e0|] st1]
    eqn:Hloop; try discriminate.
  unfold bind, isClosed.
  destruct (changeStream_closed st1) eqn:Hc; [discriminate|].
  unfold throw. intros H. injection H as <- <-.
  split; [exact Hc|].
  exact (hasNext_loop_throws_inv on_timer steps AwaitHasNext st st1 e0 Hloop).
Qed.

Lemma pull_throws_only_driver_errors_while_open_witness :
  hasNext_try_catch sample_timer steps_error_while_open st0 =
    (Threw "connection reset",
     {| console := [LDoc (VNumber 1)];
        client_ops := [];
        changeStream_closed := false |}) /\
  false = false /\
  (In (HasNextSettles (Rejects "connection reset")) steps_error_while_open \/
   In (NextSettles (Rejects "connection reset")) steps_error_while_open).
Proof.
  split; [reflexivity|].
  apply (pull_throws_only_driver_errors_while_open sample_timer
           steps_error_while_open st0 "connection reset"
           {| console := [LDoc (VNumber 1)];
              client_ops := [];
              changeStream_closed := false |}).
  reflexivity.
Defined.

(** X9. Once the change stream is closed the pull monitor's
    [try]/[catch] throws nothing, whatever the driver answers
    afterwards: every rejection is taken for the end of the stream. *)
Theorem pull_never_throws_once_closed (t : option Z) (cs : ChangeStream)
  (steps : list Step) (st : St) (e : Error) :
  changeStream_closed st = true ->
  fst (hasNext_try_catch (callback (closeChangeStream t cs)) steps st)
  <> Threw e.
Proof.
  intros Hclosed. unfold hasNext_try_catch, try_catch.
  pose proof (hasNext_loop_keeps t cs steps AwaitHasNext st) as H.
  cbv zeta in H. destruct H as (_ & Hkeep & _).
  specialize (Hkeep Hclosed).
  destruct (hasNext_loop _ AwaitHasNext steps st) as [[[]|e0|] st1];
    cbn [snd] in Hkeep; cbn [fst]; try discriminate.
  unfold bind, isClosed. rewrite Hkeep. discriminate.
Qed.

Lemma pull_never_throws_once_closed_witness :
  changeStream_closed st_closed = true /\
  fst (hasNext_try_catch sample_timer
         [HasNextSettles (Rejects "connection reset")] st_closed)
  <> Threw "connection reset".
Proof.
  split; [reflexivity|].
  apply (pull_never_throws_once_closed (Some 30000%Z) {| cs_events := [] |}
           [HasNextSettles (Rejects "connection reset")] st_closed
           "connection reset").
  reflexivity.
Defined.

(** The pull monitor is the general one, run against the steps of a
    driver that delivers the feed and rejects or ends at [close()]. *)
Lemma monitorListingsUsingHasNext_against_feed (env : Env)
  (timeInMs : option Z) (pipeline : option Pipeline) :
  monitorListingsUsingHasNext env timeInMs pipeline =
  monitorListingsUsingHasNext_against
    (pull_steps (after_close env)
       (delivered env (setTimeout_delay (with_default 60000%Z timeInMs))
          (with_default [] pipeline)))
    env timeInMs pipeline.
Proof. reflexivity. Qed.

(** X10. A feed that fails while the stream is open, after [evs] have
    been delivered, ends a run of [main] with the pull monitor: the
    events received are printed, each once and in order, no second
    change stream is opened, the client is closed, the change stream is
    left open, and [main] rejects with the error of the feed (or with
    that of [client.close()] if it rejects). *)
Theorem main_pull_feed_failure (env : Env) (timeInMs : option Z)
  (pipeline : option Pipeline) (evs : list ChangeEvent) (e : Error) (st : St) :
  connect_outcome env = None ->
  changeStream_closed st = false ->
  let run :=
    main_with
      (monitorListingsUsingHasNext_against
         (deliveries evs ++ [HasNextSettles (Rejects e)])
         env timeInMs pipeline)
      env st in
  fst run = Threw (with_default e (close_outcome env)) /\
  client_ops (snd run) =
    client_ops st ++
    [OpNew (uri env); OpConnect;
     OpWatch "sample_airbnb" "listingsAndReviews" (with_default [] pipeline);
     OpClose] /\
  printed_docs (console (snd run)) = printed_docs (console st) ++ evs /\
  changeStream_closed (snd run) = false.
Proof.
  intros Hconn Hopen. cbv zeta.
  rewrite (main_with_connected env _ st Hconn).
  unfold try_finally, monitorListingsUsingHasNext_against, bind, watch.
  cbv zeta. rewrite hasNext_fault_rethrown by exact Hopen.
  unfold client_close.
  destruct (close_outcome env); simpl settle; cbn iota; cbn [fst snd];
    (split; [reflexivity|]);
    unfold client_op, log_lines; simpl;
    rewrite <- !app_assoc, !printed_docs_app, printed_docs_LDoc; simpl;
    rewrite ?app_nil_r; (split; [reflexivity|]); (split; [reflexivity|]);
    exact Hopen.
Qed.

Lemma main_pull_feed_failure_witness :
  connect_outcome sample_env = None /\
  changeStream_closed st0 = false /\
  let run :=
    main_with
      (monitorListingsUsingHasNext_against
         (deliveries [VNumber 1; VNumber 2] ++
          [HasNextSettles (Rejects "connection reset")])
         sample_env (Some 30000%Z) None)
      sample_env st0 in
  fst run = Threw "connection reset" /\
  client_ops (snd run) =
    [OpNew "mongodb://localhost:27017"; OpConnect;
     OpWatch "sample_airbnb" "listingsAndReviews" []; OpClose] /\
  printed_docs (console (snd run)) = [VNumber 1; VNumber 2] /\
  changeStream_closed (snd run) = false.
Proof.
  split; [reflexivity|]. split; [reflexivity|].
  apply (main_pull_feed_failure sample_env (Some 30000%Z) None
           [VNumber 1; VNumber 2] "connection reset" st0); reflexivity.
Defined.

(** X11. The pull monitor does not await the timer: it returns only
    when the driver settles the [hasNext()] that is pending when the
    timer closes the stream.  Against a driver that leaves it pending,
    [main] never settles and [client.close()] is never called, although
    every event was printed and the change stream is closed. *)
Theorem main_pull_hangs_if_hasNext_stays_pending (env : Env)
  (timeInMs : option Z) (pipeline : option Pipeline)
  (evs : list ChangeEvent) (st : St) :
  connect_outcome env = None ->
  let run :=
    main_with
      (monitorListingsUsingHasNext_against (deliveries evs ++ [TimerFires])
         env timeInMs pipeline)
      env st in
  fst run = Waiting /\
  client_ops (snd run) =
    client_ops st ++
    [OpNew (uri env); OpConnect;
     OpWatch "sample_airbnb" "listingsAndReviews" (with_default [] pipeline)] /\
  printed_docs (console (snd run)) = printed_docs (console st) ++ evs /\
  changeStream_closed (snd run) = true.
Proof.
  intros Hconn. cbv zeta.
  rewrite (main_with_connected env _ st Hconn).
  unfold try_finally, monitorListingsUsingHasNext_against, bind, watch.
  cbv zeta. unfold hasNext_try_catch, try_catch.
  rewrite hasNext_loop_deliveries. cbn [hasNext_loop].
  rewrite timer_callback_run. cbn [fst snd].
  split; [reflexivity|].
  unfold timer_ran, client_op, log_lines; simpl.
  rewrite <- !app_assoc, !printed_docs_app, printed_docs_LDoc; simpl.
  rewrite ?app_nil_r. repeat split; reflexivity.
Qed.

Lemma main_pull_hangs_if_hasNext_stays_pending_witness :
  connect_outcome sample_env = None /\
  let run :=
    main_with
      (monitorListingsUsingHasNext_against
         (deliveries [VNumber 1] ++ [TimerFires])
         sample_env (Some 30000%Z) None)
      sample_env st0 in
  fst run = Waiting /\
  client_ops (snd run) =
    [OpNew "mongodb://localhost:27017"; OpConnect;
     OpWatch "sample_airbnb" "listingsAndReviews" []] /\
  printed_docs (console (snd run)) = [VNumber 1] /\
  changeStream_closed (snd run) = true.
Proof.
  split; [reflexivity|].
  apply (main_pull_hangs_if_hasNext_stays_pending sample_env (Some 30000%Z)
           None [VNumber 1] st0); reflexivity.
Defined.

(** ** The emitter monitor against any behaviour of the driver *)

Lemma emitter_loop_changes (on_timer : M unit) (evs : list ChangeEvent)
  (rest : list Emission) (st : St) :
  emitter_loop (fun next => console_log (LDoc next)) on_timer
    (map EmitsChange evs ++ rest) st =
  emitter_loop (fun next => console_log (LDoc next)) on_timer rest
    (log_lines (map LDoc evs) st).
Proof.
  revert st. induction evs as [|ev evs IH]; intros st; simpl.
  - now rewrite log_lines_nil.
  - rewrite IH. f_equal. apply (log_lines_app [LDoc ev] (map LDoc evs) st).
Qed.

(** The emitter monitor is the general one, run against a driver that
    emits the delivered changes and then lets the timer run. *)
Lemma monitorListingsUsingEventEmitter_against_feed (env : Env)
  (timeInMs : option Z) (pipeline : option Pipeline) (st : St) :
  monitorListingsUsingEventEmitter env timeInMs pipeline st =
  monitorListingsUsingEventEmitter_against
    (map EmitsChange
       (delivered env (setTimeout_delay (with_default 60000%Z timeInMs))
          (with_default [] pipeline)) ++ [EmitterTimerFires])
    env timeInMs pipeline st.
Proof.
  rewrite emitter_run.
  unfold monitorListingsUsingEventEmitter_against, bind, watch. cbv zeta.
  rewrite emitter_loop_changes. reflexivity.
Qed.

Lemma emitter_against_timer_run (env : Env) (timeInMs : option Z)
  (pipeline : option Pipeline) (evs : list ChangeEvent)
  (rest : list Emission) (st : St) :
  monitorListingsUsingEventEmitter_against
    (map EmitsChange evs ++ EmitterTimerFires :: rest) env timeInMs pipeline st =
  (Returned tt,
   timer_ran (log_lines (map LDoc evs) (opened (with_default [] pipeline) st))).
Proof.
  unfold monitorListingsUsingEventEmitter_against, bind, watch. cbv zeta.
  rewrite emitter_loop_changes. reflexivity.
Qed.

Lemma emitter_against_error_run (env : Env) (timeInMs : option Z)
  (pipeline : option Pipeline) (evs : list ChangeEvent) (e : Error)
  (rest : list Emission) (st : St) :
  monitorListingsUsingEventEmitter_against
    (map EmitsChange evs ++ EmitsError e :: rest) env timeInMs pipeline st =
  (Waiting, log_lines (map LDoc evs) (opened (with_default [] pipeline) st)).
Proof.
  unfold monitorListingsUsingEventEmitter_against, bind, watch. cbv zeta.
  rewrite emitter_loop_changes. reflexivity.
Qed.




Lemma hasNext_against_pull_steps_run (env : Env) (timeInMs : option Z)
  (pipeline : option Pipeline) (evs : list ChangeEvent) (st : St) :
  monitorListingsUsingHasNext_against (pull_steps (after_close env) evs)
    env timeInMs pipeline st =
  (Returned tt,
   log_lines
     (match after_close env with
      | None => []
      | Some _ => [closed_line]
      end)
     (timer_ran
        (log_lines (map LDoc evs) (opened (with_default [] pipeline) st)))).
Proof.
  unfold monitorListingsUsingHasNext_against, bind, watch. cbv zeta.
  unfold hasNext_try_catch, try_catch, pull_steps.
  rewrite hasNext_loop_deliveries. simpl.
  destruct (after_close env) as [e|]; simpl.
  - reflexivity.
  - now rewrite log_lines_nil.
Qed.

Lemma stream_against_run (env : Env) (timeInMs : option Z)
  (pipeline : option Pipeline) (docs : list ChangeEvent) (st : St) :
  monitorListingsUsingStreamAPI_against docs env timeInMs pipeline st =
  (Returned tt,
   timer_ran
     (log_lines (map LDoc docs) (opened (with_default [] pipeline) st))).
Proof.
  unfold monitorListingsUsingStreamAPI_against, bind, watch. cbv zeta.
  rewrite pipe_log. reflexivity.
Qed.

(** X5. Run by [main] after a successful [connect()], each of the three
    monitors, whatever events [evs] the driver hands over before the
    timer runs (as ['change'] emissions, as [hasNext()]/[next()]
    answers, as chunks of the readable stream), opens one change stream
    with the pipeline it was given, prints exactly [evs], once each and
    in order, leaves the change stream closed, and is followed by
    [client.close()], whose outcome is the outcome of [main]. *)
Theorem main_with_each_monitor (env : Env) (timeInMs : option Z)
  (pipeline : option Pipeline) (evs : list ChangeEvent) (st : St) :
  connect_outcome env = None ->
  clean_run env (with_default [] pipeline) evs st
    (main_with
       (monitorListingsUsingEventEmitter_against
          (map EmitsChange evs ++ [EmitterTimerFires]) env timeInMs pipeline)
       env st) /\
  clean_run env (with_default [] pipeline) evs st
    (main_with
       (monitorListingsUsingHasNext_against
          (pull_steps (after_close env) evs) env timeInMs pipeline)
       env st) /\
  clean_run env (with_default [] pipeline) evs st
    (main_with
       (monitorListingsUsingStreamAPI_against evs env timeInMs pipeline)
       env st).
Proof.
  intros Hconn. unfold clean_run. split; [|split].
  - apply (main_with_monitor_run env _ st (with_default [] pipeline) evs []);
      try easy.
    intros s. rewrite emitter_against_timer_run. now rewrite log_lines_nil.
  - apply (main_with_monitor_run env _ st (with_default [] pipeline) evs
             (match after_close env with
              | None => []
              | Some _ => [closed_line]
              end)); try easy.
    + now destruct (after_close env).
    + intros s. apply hasNext_against_pull_steps_run.
  - apply (main_with_monitor_run env _ st (with_default [] pipeline) evs []);
      try easy.
    intros s. rewrite stream_against_run. now rewrite log_lines_nil.
Qed.

Lemma main_with_each_monitor_witness :
  connect_outcome sample_env = None /\
  clean_run sample_env pipeline_of_main [VNumber 1; VNumber 2] st0
    (main_with
       (monitorListingsUsingHasNext_against
          (pull_steps (after_close sample_env) [VNumber 1; VNumber 2])
          sample_env (Some 30000%Z) (Some pipeline_of_main))
       sample_env st0).
Proof.
  split; [reflexivity|].
  apply (main_with_each_monitor sample_env (Some 30000%Z)
           (Some pipeline_of_main) [VNumber 1; VNumber 2] st0).
  reflexivity.
Defined.



(** X2. The top-level call [main().catch(console.error)], with [main] as
    written.  When the change stream emits only changes until the timer
    runs, the call settles without an error, and the console ends with
    one error line exactly when [connect()] or [client.close()] rejected
    (the error of [client.close()] if both did).  When the change stream
    emits ['error'] before the timer, after a successful [connect()],
    the call never settles: nothing is printed after the changes emitted
    so far, [console.error] is not called and the client is not closed. *)
Theorem script_logs_rejections_only (env : Env) (evs : list ChangeEvent)
  (rest : list Emission) (st : St) :
  (let run :=
     script_against (map EmitsChange evs ++ EmitterTimerFires :: rest) env st in
   fst run = Returned tt /\
   console (snd run) =
     console st ++
     match connect_outcome env with
     | None =>
         LText "Connected successfully to mongodb"
           :: map LDoc evs ++ [LText "Closing the change stream"]
     | Some _ => []
     end ++
     match close_outcome env, connect_outcome env with
     | Some e, _ => [LError e]
     | None, Some e => [LError e]
     | None, None => []
     end) /\
  (connect_outcome env = None ->
   forall e,
     let run :=
       script_against (map EmitsChange evs ++ EmitsError e :: rest) env st in
     fst run = Waiting /\
     console (snd run) =
       console st ++ LText "Connected successfully to mongodb" :: map LDoc evs /\
     client_ops (snd run) =
       client_ops st ++
       [OpNew (uri env); OpConnect;
        OpWatch "sample_airbnb" "listingsAndReviews" []]).
Proof.
  split.
  - cbv zeta. unfold script_against, try_catch.
    destruct (connect_outcome env) as [e|] eqn:Hconn.
    + unfold main_with, try_finally, bind, connect, client_close.
      rewrite Hconn. simpl.
      destruct (close_outcome env); simpl; split; reflexivity.
    + rewrite (main_with_connected env _ st Hconn).
      unfold try_finally. rewrite emitter_against_timer_run.
      unfold client_close.
      destruct (close_outcome env); simpl; (split; [reflexivity|]);
        rewrite <- ?app_assoc; simpl; rewrite ?app_nil_r;
        rewrite <- ?app_assoc; reflexivity.
  - intros Hconn e. cbv zeta. unfold script_against, try_catch.
    rewrite (main_with_connected env _ st Hconn).
    unfold try_finally. rewrite emitter_against_error_run.
    cbn [fst snd]. split; [reflexivity|].
    unfold opened, client_op, log_lines; simpl.
    rewrite <- !app_assoc. split; reflexivity.
Qed.

Lemma script_logs_rejections_only_witness :
  connect_outcome sample_env = None /\
  let run :=
    script_against
      (map EmitsChange [VNumber 1] ++ EmitsError "cursor killed" :: [])
      sample_env st0 in
  fst run = Waiting /\
  console (snd run) =
    [LText "Connected successfully to mongodb"; LDoc (VNumber 1)] /\
  client_ops (snd run) =
    [OpNew "mongodb://localhost:27017"; OpConnect;
     OpWatch "sample_airbnb" "listingsAndReviews" []].
Proof.
  split; [reflexivity|].
  apply (proj2 (script_logs_rejections_only sample_env [VNumber 1] [] st0)).
  reflexivity.
Defined.
